(** * treex: the [Conv] layer and the CNN example's training steps

    A shallow embedding of [treex/nn/conv.py] and of the functions
    [loss_fn], [train_step] and [test_step] of [examples/cnn.py].

    Python integers are [Z], [None]-able attributes are [option]s,
    dictionaries are [gmap]s keyed by strings.  A method is a function of
    the object's state that yields an outcome (a value or a raised
    exception) together with the state it leaves behind, so that every
    attribute assignment of the source is visible in the result. *)

From Stdlib Require Import ZArith Lia.
From stdpp Require Import base option list gmap strings.

Set Warnings "-register-all".

Local Open Scope string_scope.
Local Open Scope list_scope.
Local Open Scope Z_scope.

(** ** Python values, exceptions and built-ins *)

Module Py.

Inductive exn : Type :=
  | AssertionError (msg : string)
  | ValueError (msg : string)
  | KeyError (key : string)
  | IndexError (msg : string)
  | TypeError (msg : string).

(** The outcome of evaluating an expression or running a statement. *)
Inductive result (A : Type) : Type :=
  | Return (a : A)
  | Raise (e : exn).
Arguments Return {A} a.
Arguments Raise {A} e.

#[global] Instance result_ret : MRet result := @Return.
#[global] Instance result_bind : MBind result := λ A B f r,
  match r with Return a => f a | Raise e => Raise e end.
#[global] Instance result_fmap : FMap result := λ A B f r,
  match r with Return a => Return (f a) | Raise e => Raise e end.

(** A method body over an object state [S]: the exception, when one is
    raised, leaves the assignments made before it in place. *)
Definition method (S A : Type) : Type := S → result A * S.

#[global] Instance method_ret {S} : MRet (method S) := λ A a s, (Return a, s).
#[global] Instance method_bind {S} : MBind (method S) := λ A B f m s,
  match m s with
  | (Return a, s') => f a s'
  | (Raise e, s') => (Raise e, s')
  end.

(** [self.f] *)
Definition attr {S A} (f : S → A) : method S A := λ s, (Return (f s), s).
(** [self.f = v], with [upd] the record update for [f] *)
Definition assign {S} (upd : S → S) : method S unit := λ s, (Return (), upd s).
(** an expression that may raise, evaluated inside a method *)
Definition eval {S A} (r : result A) : method S A := λ s, (r, s).
(** [assert b, msg] *)
Definition assert_ {S} (b : bool) (msg : string) : method S unit :=
  eval (if b then Return () else Raise (AssertionError msg)).

(** [len(l)] *)
Definition len {A} (l : list A) : Z := Z.of_nat (length l).

(** [min(l)] on a sequence of integers *)
Definition min (l : list Z) : result Z :=
  match l with
  | [] => Raise (ValueError "min() arg is an empty sequence")
  | a :: l' => Return (foldl Z.min a l')
  end.

(** [list(range(a, b))] *)
Definition range (a b : Z) : list Z := seqZ a (b - a).

(** [l[i] = v], negative indices counting from the end *)
Definition setitem {A} (l : list A) (i : Z) (v : A) : result (list A) :=
  let j := if i <? 0 then i + len l else i in
  if (0 <=? j) && (j <? len l)
  then Return (<[Z.to_nat j := v]> l)
  else Raise (IndexError "list assignment index out of range").

(** [d[k]] *)
Definition getitem {V} (d : gmap string V) (k : string) : result V :=
  match d !! k with
  | Some v => Return v
  | None => Raise (KeyError k)
  end.

Lemma bind_Return {A B} (r : result A) (f : A → result B) (b : B) :
  r ≫= f = Return b ↔ ∃ a, r = Return a ∧ f a = Return b.
Proof.
  destruct r as [a|e]; simpl; split.
  - eauto.
  - by intros (? & [= <-] & ?).
  - discriminate.
  - by intros (? & [=] & _).
Qed.

Lemma fmap_Return {A B} (r : result A) (f : A → B) (b : B) :
  f <$> r = Return b ↔ ∃ a, r = Return a ∧ b = f a.
Proof.
  destruct r as [a|e]; simpl; split.
  - intros [= <-]. eauto.
  - by intros (? & [= <-] & ->).
  - discriminate.
  - by intros (? & [=] & _).
Qed.

End Py.

Import Py.

(** ** treex.types *)

Module types.

(** Modelled from the spec: the kinds of typed leaves a module tree holds
    (parameters, batch statistics, random-number state).  [treex/types.py]
    is not part of the sources; [Parameter_] is the kind [conv.py] and
    [cnn.py] name as [Parameter]. *)
Inductive Kind : Type := Parameter_ | BatchStat | Rng.

#[global] Instance Kind_eq_dec : EqDecision Kind.
Proof. solve_decision. Defined.

End types.

(** ** The libraries the code calls into

    jax, flax and optax are outside the repository: their types and
    functions are parameters of the development. *)

Class JaxTypes : Type := {
  Array : Type;      (* jnp.ndarray *)
  PRNGKey : Type;
  Dtype : Type;
  Precision : Type;  (* tp.Any *)
}.

Module flax_module.

Section Conv.
Context `{JaxTypes}.

(** [tp.Union[int, tp.Iterable[int]]]: an integer, or the items of a
    sequence that can be traversed more than once (a list, a tuple). *)
Inductive kernel_size_t : Type :=
  | KInt (k : Z)
  | KSeq (ks : list Z).

(** [tp.Union[str, tp.Iterable[tp.Tuple[int, int]]]] *)
Inductive padding_t : Type :=
  | PadStr (s : string)
  | PadSeq (lohi : list (Z * Z)).

Definition initializer : Type := PRNGKey → list Z → Dtype → Array.

(** The hyper-parameters of a [flax.linen.Conv], as [Conv.module] passes
    them. *)
Record Conv : Type := {
  features : Z;
  kernel_size : kernel_size_t;
  strides : option (list Z);
  padding : padding_t;
  input_dilation : option (list Z);
  kernel_dilation : option (list Z);
  feature_group_count : Z;
  use_bias : bool;
  dtype : Dtype;
  precision : Precision;
  kernel_init : initializer;
  bias_init : initializer;
}.

End Conv.

(** [flax.linen.Conv.apply], which returns an array or raises, and
    [flax.linen.Conv.init]; [init]'s result is taken after [.unfreeze()],
    a plain nested dictionary. *)
Class Linen `{JaxTypes} : Type := {
  apply :
    Conv → gmap string (gmap string (option Array)) → Array → result Array;
  init : Conv → PRNGKey → Array → gmap string (gmap string Array);
}.

End flax_module.

(** [jax.random.uniform(key, shape=shape)] *)
Class JaxRandom `{JaxTypes} : Type := {
  uniform : PRNGKey → list Z → Array;
}.

(** ** treex.module.Module

    [treex/module.py] is not part of the sources.  What [Conv] inherits
    from it is kept abstract: the state [Module.__init__] sets up and the
    [initialized] property read from it. *)
Class ModuleBase : Type := {
  ModuleState : Type;
  Module__init__ : ModuleState;
  Module_initialized : ModuleState → bool;
}.

(** ** One-element arrays

    An interpretation of the library parameters on which the definitions
    can be run: an array holds a single integer, a convolution multiplies
    by the kernel and adds the bias when the parameters carry one, raising
    when the kernel or a bias entry is not an array, and initialisation
    asks the module's initialisers for both. *)

Module Scalar.

#[export] Instance types : JaxTypes :=
  {| Array := Z; PRNGKey := Z; Dtype := unit; Precision := unit |}.

Definition entry (params : gmap string (option Z)) (k : string) : Z :=
  default 0 (default None (params !! k)).

Definition conv_apply (m : flax_module.Conv)
    (variables : gmap string (gmap string (option Z))) (x : Z) : result Z :=
  let params := default ∅ (variables !! "params") in
  match params !! "kernel", params !! "bias" with
  | Some (Some _), (None | Some (Some _)) =>
      Return (x * entry params "kernel" + entry params "bias")
  | _, _ => Raise (TypeError "parameter is not an array")
  end.

Definition conv_init (m : flax_module.Conv) (key : Z) (x : Z)
    : gmap string (gmap string Z) :=
  let kernel := flax_module.kernel_init m key [] (flax_module.dtype m) in
  let bias := flax_module.bias_init m key [] (flax_module.dtype m) in
  {[ "params" :=
       if flax_module.use_bias m
       then <[ "bias" := bias ]> {[ "kernel" := kernel ]}
       else {[ "kernel" := kernel ]} ]}.

#[export] Instance linen : flax_module.Linen :=
  {| flax_module.apply := conv_apply; flax_module.init := conv_init |}.

#[export] Instance random : JaxRandom :=
  {| uniform := λ key shape, key + Py.len shape |}.

(** The base class as a flag that starts cleared. *)
#[export] Instance module_base : ModuleBase :=
  {| ModuleState := bool; Module__init__ := false; Module_initialized := id |}.

End Scalar.

(** ** treex/nn/conv.py: class [Conv] *)

Module Conv.

(** How the class body declares an attribute: with a [types.K.field()]
    default (a pytree leaf of kind [K], the block under [# pytree]) or by
    a bare annotation (a static property, the block under [# props]). *)
Inductive declaration : Type :=
  | field (k : types.Kind)
  | prop.

#[global] Instance declaration_eq_dec : EqDecision declaration.
Proof. solve_decision. Defined.

(** The attribute declarations of the class body, in source order. *)
Definition declarations : list (string * declaration) :=
  [ ("kernel", field types.Parameter_);
    ("bias", field types.Parameter_);
    ("features_in", prop);
    ("features_out", prop);
    ("kernel_size", prop);
    ("strides", prop);
    ("padding", prop);
    ("input_dilation", prop);
    ("kernel_dilation", prop);
    ("feature_group_count", prop);
    ("use_bias", prop);
    ("dtype", prop);
    ("precision", prop);
    ("kernel_init", prop);
    ("bias_init", prop) ].

(** The parameter names of [__init__] after [self], in source order. *)
Definition init_parameters : list string :=
  [ "features_in"; "features_out"; "kernel_size"; "strides"; "padding";
    "input_dilation"; "kernel_dilation"; "feature_group_count"; "use_bias";
    "dtype"; "precision"; "kernel_init"; "bias_init" ].

Section Conv.
Context {JT : JaxTypes} {FL : flax_module.Linen} {JR : JaxRandom}
        {MB : ModuleBase}.

(** The state of a [Conv] object: one component per attribute, and [base]
    for what the [Module] base class keeps. *)
Record t : Type := {
  kernel : option Array;
  bias : option Array;
  features_in : Z;
  features_out : Z;
  kernel_size : flax_module.kernel_size_t;
  strides : option (list Z);
  padding : flax_module.padding_t;
  input_dilation : option (list Z);
  kernel_dilation : option (list Z);
  feature_group_count : Z;
  use_bias : bool;
  dtype : Dtype;
  precision : Precision;
  kernel_init : flax_module.initializer;
  bias_init : flax_module.initializer;
  base : ModuleState;
}.

(** [self.kernel = v] *)
Definition set_kernel (v : option Array) (self : t) : t :=
  {| kernel := v; bias := bias self;
     features_in := features_in self; features_out := features_out self;
     kernel_size := kernel_size self; strides := strides self;
     padding := padding self; input_dilation := input_dilation self;
     kernel_dilation := kernel_dilation self;
     feature_group_count := feature_group_count self;
     use_bias := use_bias self; dtype := dtype self;
     precision := precision self; kernel_init := kernel_init self;
     bias_init := bias_init self; base := base self |}.

(** [self.bias = v] *)
Definition set_bias (v : option Array) (self : t) : t :=
  {| kernel := kernel self; bias := v;
     features_in := features_in self; features_out := features_out self;
     kernel_size := kernel_size self; strides := strides self;
     padding := padding self; input_dilation := input_dilation self;
     kernel_dilation := kernel_dilation self;
     feature_group_count := feature_group_count self;
     use_bias := use_bias self; dtype := dtype self;
     precision := precision self; kernel_init := kernel_init self;
     bias_init := bias_init self; base := base self |}.

(** [self.initialized], inherited from [Module] *)
Definition initialized (self : t) : bool := Module_initialized (base self).

(** [Conv.__init__]: [super().__init__()], then the thirteen properties
    are stored and the two leaves are set to [None]. *)
Definition __init__
    (features_in : Z) (features_out : Z)
    (kernel_size : flax_module.kernel_size_t)
    (strides : option (list Z)) (padding : flax_module.padding_t)
    (input_dilation kernel_dilation : option (list Z))
    (feature_group_count : Z) (use_bias : bool) (dtype : Dtype)
    (precision : Precision)
    (kernel_init bias_init : flax_module.initializer) : t :=
  {| base := Module__init__;
     features_in := features_in; features_out := features_out;
     kernel_size := kernel_size; strides := strides; padding := padding;
     input_dilation := input_dilation; kernel_dilation := kernel_dilation;
     feature_group_count := feature_group_count; use_bias := use_bias;
     dtype := dtype; precision := precision;
     kernel_init := kernel_init; bias_init := bias_init;
     kernel := None; bias := None |}.

(** The [module] property: the wrapped [flax.linen.Conv]. *)
Definition module (self : t) : flax_module.Conv :=
  {| flax_module.features := features_out self;
     flax_module.kernel_size := kernel_size self;
     flax_module.strides := strides self;
     flax_module.padding := padding self;
     flax_module.input_dilation := input_dilation self;
     flax_module.kernel_dilation := kernel_dilation self;
     flax_module.feature_group_count := feature_group_count self;
     flax_module.use_bias := use_bias self;
     flax_module.dtype := dtype self;
     flax_module.precision := precision self;
     flax_module.kernel_init := kernel_init self;
     flax_module.bias_init := bias_init self |}.

(** The first part of [module_init]: the shape of the array the wrapped
    module is initialised on. *)
Definition module_init_shape : method t (list Z) :=
  ks ← attr (flax_module.kernel_size ∘ module);
  '(ndim, mindim) ←
    match ks return method t (Z * Z) with
    | flax_module.KInt k => mret (1, k)
    | flax_module.KSeq l => mindim ← eval (Py.min l); mret (len l, mindim)
    end;
  let mindim := mindim * 2 in
  let shape := Py.range mindim (mindim + ndim + 1) in
  features_in ← attr features_in;
  eval (setitem shape (-1) features_in).

(** [Conv.module_init] *)
Definition module_init (key : PRNGKey) : method t unit :=
  shape ← module_init_shape;
  let x := uniform key shape in
  m ← attr module;
  let variables := flax_module.init m key x in
  params ← eval (getitem variables "params");
  kernel ← eval (getitem params "kernel");
  assign (set_kernel (Some kernel));;
  use_bias ← attr use_bias;
  if use_bias : bool then
    params ← eval (getitem variables "params");
    bias ← eval (getitem params "bias");
    assign (set_bias (Some bias))
  else mret ().

(** [Conv.__call__] *)
Definition __call__ (x : Array) : method t Array :=
  initialized ← attr initialized;
  assert_ initialized "Module not initialized";;
  kernel ← attr kernel;
  let params : gmap string (option Array) := {[ "kernel" := kernel ]} in
  use_bias ← attr use_bias;
  params ←
    (if use_bias : bool
     then bias ← attr bias; mret (<[ "bias" := bias ]> params)
     else mret params);
  m ← attr module;
  output ← eval (flax_module.apply m {[ "params" := params ]} x);
  mret output.

End Conv.

(** *** Specification-side definitions the code is compared with *)

Section ConvSpec.
Context {JT : JaxTypes} {FL : flax_module.Linen} {JR : JaxRandom}
        {MB : ModuleBase}.

(** The parameter dictionary the wrapped module is to be applied with:
    [kernel], plus [bias] exactly when [use_bias] holds. *)
Definition delegated_params (c : t) : gmap string (option Array) :=
  {[ "kernel" := kernel c ]} ∪
  (if use_bias c then {[ "bias" := bias c ]} else ∅).

(** The outcome of the [flax.linen.Conv] built from the stored properties,
    applied to [x] with those parameters. *)
Definition delegated_output (c : t) (x : Array) : result Array :=
  flax_module.apply
    {| flax_module.features := features_out c;
       flax_module.kernel_size := kernel_size c;
       flax_module.strides := strides c;
       flax_module.padding := padding c;
       flax_module.input_dilation := input_dilation c;
       flax_module.kernel_dilation := kernel_dilation c;
       flax_module.feature_group_count := feature_group_count c;
       flax_module.use_bias := use_bias c;
       flax_module.dtype := dtype c;
       flax_module.precision := precision c;
       flax_module.kernel_init := kernel_init c;
       flax_module.bias_init := bias_init c |}
    {[ "params" := delegated_params c ]} x.

(** Two modules that agree on every attribute except possibly [bias]. *)
Definition equal_except_bias (c1 c2 : t) : Prop :=
  set_bias None c1 = set_bias None c2.

(** The thirteen stored constructor properties of a module. *)
Definition props (c : t) :=
  (features_in c, features_out c, kernel_size c, strides c, padding c,
   input_dilation c, kernel_dilation c, feature_group_count c, use_bias c,
   dtype c, precision c, kernel_init c, bias_init c).

(** [ndim] of [module_init]. *)
Definition ndim (c : t) : Z :=
  match kernel_size c with
  | flax_module.KInt _ => 1
  | flax_module.KSeq l => len l
  end.

(** [m] is the smallest kernel extent: [kernel_size] itself when it is an
    integer, a least element of it otherwise. *)
Definition min_kernel_size (c : t) (m : Z) : Prop :=
  match kernel_size c with
  | flax_module.KInt k => m = k
  | flax_module.KSeq l => m ∈ l ∧ ∀ k, k ∈ l → m ≤ k
  end.

(** The rank of the inputs [__call__] documents:
    [(batch, spatial_dims..., features)]. *)
Definition documented_input_rank (c : t) : Z := 1 + ndim c + 1.

End ConvSpec.

(** *** Running [__call__] *)

Section ConvCall.
Context {JT : JaxTypes} {FL : flax_module.Linen} {JR : JaxRandom}
        {MB : ModuleBase}.

Lemma call_unfold (x : Array) (c : t) :
  __call__ x c =
  if initialized c
  then (flax_module.apply (module c)
          {[ "params" :=
               if use_bias c
               then <[ "bias" := bias c ]> {[ "kernel" := kernel c ]}
               else {[ "kernel" := kernel c ]} ]} x, c)
  else (Raise (AssertionError "Module not initialized"), c).
Proof.
  unfold __call__, mbind, method_bind, attr, assert_, eval, mret, method_ret.
  destruct (initialized c); [|reflexivity].
  destruct (use_bias c);
    match goal with |- context [flax_module.apply ?m ?v ?x] =>
      destruct (flax_module.apply m v x) end; reflexivity.
Qed.

Lemma built_params (c : t) :
  (if use_bias c
   then <[ "bias" := bias c ]> ({[ "kernel" := kernel c ]} : gmap string (option Array))
   else {[ "kernel" := kernel c ]}) = delegated_params c.
Proof.
  unfold delegated_params. destruct (use_bias c).
  - apply map_eq; intros k.
    destruct (decide (k = "bias")) as [->|Hb].
    + rewrite lookup_insert_eq. symmetry.
      apply lookup_union_Some_raw. right. split.
      * apply lookup_singleton_ne. discriminate.
      * apply lookup_singleton_eq.
    + rewrite lookup_insert_ne by congruence.
      rewrite lookup_union, (lookup_singleton_ne "bias" k) by congruence.
      destruct (_ !! k); reflexivity.
  - rewrite (right_id_L ∅ (∪)). reflexivity.
Qed.

(** C1. Delegation: on an initialized module, the outcome of [__call__]
    is exactly that of the [flax.linen.Conv] built from the stored
    properties ([features] from [features_out], the other eleven
    unchanged) on [x] with the parameters holding [kernel], and [bias]
    exactly when [use_bias] is set; nothing else is computed. *)
Theorem call_delegates (c : t) (x : Array) :
  initialized c = true →
  (__call__ x c).1 = delegated_output c x.
Proof.
  intros Hinit. rewrite call_unfold, Hinit, built_params.
  destruct c; reflexivity.
Qed.

(** C4. Purity of application: [__call__] leaves every attribute of the
    module as it found it, whatever the input and whether or not the call
    succeeds. *)
Theorem call_preserves_state (c : t) (x : Array) :
  (__call__ x c).2 = c.
Proof. rewrite call_unfold. destruct (initialized c); reflexivity. Qed.

(** C7, as amended. Uninitialized-call safety: on a module that is not
    initialized the call raises the assertion error "Module not
    initialized" and does nothing else, whatever the wrapped library is; a
    freshly constructed module, whose kernel is still [None], is such a
    module as long as the base class starts uninitialized; on an
    initialized module the assertion does not fire and the outcome of the
    call is the outcome of the wrapped module's [apply]: the value it
    returns, or the exception it raises. *)
Theorem call_requires_initialized (c : t) (x : Array) :
  (initialized c = false →
     __call__ x c = (Raise (AssertionError "Module not initialized"), c)) ∧
  (Module_initialized Module__init__ = false →
     ∀ fi fo ks st pad idil kdil fgc ub dt pr ki bi,
       let c0 := __init__ fi fo ks st pad idil kdil fgc ub dt pr ki bi in
       kernel c0 = None ∧
       __call__ x c0 = (Raise (AssertionError "Module not initialized"), c0)) ∧
  (initialized c = true →
     __call__ x c = (delegated_output c x, c) ∧
     ∀ v, delegated_output c x = Return v → __call__ x c = (Return v, c)).
Proof.
  split; [|split].
  - intros Hinit. rewrite call_unfold, Hinit. reflexivity.
  - intros Hbase fi fo ks st pad idil kdil fgc ub dt pr ki bi c0.
    split; [reflexivity|].
    rewrite call_unfold. unfold initialized, c0. simpl.
    rewrite Hbase. reflexivity.
  - intros Hinit. rewrite call_unfold, Hinit, built_params.
    assert (Hrun : flax_module.apply (module c)
                     {[ "params" := delegated_params c ]} x
                   = delegated_output c x) by (destruct c; reflexivity).
    rewrite Hrun. split; [reflexivity|]. by intros v ->.
Qed.

(** C9. Bias noninterference: two modules with [use_bias] unset that
    differ at most in [bias] produce the same outcome on every input. *)
Theorem call_ignores_unused_bias (c1 c2 : t) (x : Array) :
  use_bias c1 = false →
  equal_except_bias c1 c2 →
  (__call__ x c1).1 = (__call__ x c2).1.
Proof.
  unfold equal_except_bias. intros Hub Heq.
  assert (Hfields : use_bias c2 = false ∧ kernel c2 = kernel c1 ∧
                    initialized c2 = initialized c1 ∧ module c2 = module c1).
  { destruct c1, c2; simpl in *. unfold initialized, module; simpl.
    inversion Heq; subst. auto. }
  destruct Hfields as (Hub2 & Hk & Hi & Hm).
  rewrite !call_unfold, Hub, Hub2, Hk, Hi, Hm.
  destruct (initialized c1); reflexivity.
Qed.

End ConvCall.

(** *** Running [module_init] *)

Section ConvInit.
Context {JT : JaxTypes} {FL : flax_module.Linen} {JR : JaxRandom}
        {MB : ModuleBase}.

Lemma foldl_min_least (l : list Z) (a : Z) :
  foldl Z.min a l ∈ a :: l ∧ ∀ k, k ∈ a :: l → foldl Z.min a l ≤ k.
Proof.
  revert a. induction l as [|b l IH]; intros a; simpl.
  - split; [left|]. intros k ->%list_elem_of_singleton. lia.
  - destruct (IH (Z.min a b)) as [Hin Hle]. split.
    + apply elem_of_cons in Hin as [Heq|Hin].
      * rewrite Heq. destruct (Z.min_spec a b) as [[_ ->]|[_ ->]].
        -- left.
        -- right; left.
      * right; right; exact Hin.
    + intros k Hk.
      assert (Hm : foldl Z.min (Z.min a b) l ≤ Z.min a b) by (apply Hle; left).
      apply elem_of_cons in Hk as [->|Hk]; [lia|].
      apply elem_of_cons in Hk as [->|Hk]; [lia|].
      apply Hle. right. exact Hk.
Qed.

Lemma min_returns (l : list Z) (m : Z) :
  Py.min l = Return m ↔ m ∈ l ∧ ∀ k, k ∈ l → m ≤ k.
Proof.
  destruct l as [|a l]; simpl.
  - split; [discriminate|]. intros [Hin _]. inversion Hin.
  - destruct (foldl_min_least l a) as [Hin Hle]. split.
    + intros [= <-]. auto.
    + intros [Hm Hleast]. f_equal.
      apply Z.le_antisymm; [apply Hle, Hm | apply Hleast, Hin].
Qed.

Lemma setitem_last_range (a n v : Z) :
  0 ≤ n →
  setitem (Py.range a (a + n + 1)) (-1) v = Return (seqZ a n ++ [v]).
Proof.
  intros Hn. unfold Py.range, setitem, len.
  replace (a + n + 1 - a) with (n + 1) by lia.
  rewrite length_seqZ, Z2Nat.id by lia.
  replace (-1 <? 0) with true by reflexivity.
  replace (-1 + (n + 1)) with n by lia.
  replace (0 <=? n) with true by (symmetry; apply Z.leb_le; lia).
  replace (n <? n + 1) with true by (symmetry; apply Z.ltb_lt; lia).
  simpl. f_equal.
  rewrite seqZ_app by lia.
  rewrite (seqZ_cons (a + n) 1), (seqZ_nil _ (Z.pred 1)) by lia.
  replace (Z.to_nat n) with (length (seqZ a n) + 0)%nat
    by (rewrite length_seqZ; lia).
  rewrite insert_app_r. reflexivity.
Qed.

Lemma module_init_shape_unfold (c : t) :
  module_init_shape c =
  (match kernel_size c with
   | flax_module.KInt k => Return (seqZ (k * 2) 1 ++ [features_in c])
   | flax_module.KSeq l =>
       m ← Py.min l; Return (seqZ (m * 2) (len l) ++ [features_in c])
   end, c).
Proof.
  unfold module_init_shape, mbind, method_bind, attr, eval, mret, method_ret.
  simpl. destruct (kernel_size c) as [k|l]; simpl.
  - rewrite setitem_last_range by lia. reflexivity.
  - destruct (Py.min l) as [m|e]; simpl; [|reflexivity].
    rewrite setitem_last_range by (unfold len; lia). reflexivity.
Qed.

Lemma module_init_shape_state (c : t) : (module_init_shape c).2 = c.
Proof. rewrite module_init_shape_unfold. reflexivity. Qed.

Lemma module_init_shape_returns (c : t) (shape : list Z) :
  module_init_shape c = (Return shape, c) ↔
  ∃ m, min_kernel_size c m ∧
       shape = seqZ (2 * m) (ndim c) ++ [features_in c].
Proof.
  rewrite module_init_shape_unfold. unfold min_kernel_size, ndim.
  destruct (kernel_size c) as [k|l].
  - split.
    + intros [= <-]. exists k. split; [reflexivity|]. by rewrite Z.mul_comm.
    + intros (m & -> & ->). by rewrite Z.mul_comm.
  - split.
    + destruct (Py.min l) as [m|e] eqn:Hmin; simpl; [|discriminate].
      intros [= <-]. exists m. split; [by apply min_returns|].
      by rewrite Z.mul_comm.
    + intros (m & Hm & ->). apply min_returns in Hm. rewrite Hm. simpl.
      by rewrite Z.mul_comm.
Qed.

Lemma module_init_unfold (key : PRNGKey) (c : t) :
  module_init key c =
  match (module_init_shape c).1 with
  | Raise e => (Raise e, c)
  | Return shape =>
      let variables := flax_module.init (module c) key (uniform key shape) in
      match getitem variables "params" with
      | Raise e => (Raise e, c)
      | Return params =>
          match getitem params "kernel" with
          | Raise e => (Raise e, c)
          | Return k =>
              if use_bias c then
                match getitem params "bias" with
                | Raise e => (Raise e, set_kernel (Some k) c)
                | Return b =>
                    (Return (), set_bias (Some b) (set_kernel (Some k) c))
                end
              else (Return (), set_kernel (Some k) c)
          end
      end
  end.
Proof.
  unfold module_init, mbind, method_bind.
  rewrite module_init_shape_unfold. cbn [fst].
  match goal with |- match ?r with _ => _ end = _ =>
    destruct r as [shape|e]; [|reflexivity] end.
  unfold attr, eval, assign, mret, method_ret. cbn zeta.
  destruct (getitem _ "params") as [params|e]; [|reflexivity].
  destruct (getitem params "kernel") as [k|e]; [|reflexivity].
  cbn [use_bias set_kernel].
  destruct (use_bias c); [|reflexivity].
  destruct (getitem params "bias") as [b|e]; reflexivity.
Qed.

Lemma getitem_returns {V} (d : gmap string V) (k : string) (v : V) :
  getitem d k = Return v ↔ d !! k = Some v.
Proof. unfold getitem. destruct (d !! k); split; congruence. Qed.

(** When [module_init] returns, and what it leaves behind. *)
Lemma module_init_returns (key : PRNGKey) (c c1 : t) :
  module_init key c = (Return (), c1) ↔
  ∃ shape params k,
    module_init_shape c = (Return shape, c) ∧
    flax_module.init (module c) key (uniform key shape) !! "params"
      = Some params ∧
    params !! "kernel" = Some k ∧
    if use_bias c
    then ∃ b, params !! "bias" = Some b ∧
              c1 = set_bias (Some b) (set_kernel (Some k) c)
    else c1 = set_kernel (Some k) c.
Proof.
  rewrite module_init_unfold.
  pose proof (module_init_shape_state c) as Hst.
  destruct (module_init_shape c) as [[shape|e] c'] eqn:Hshape;
    simpl in Hst; subst c'; cbn [fst].
  - cbn zeta. split.
    + destruct (getitem _ "params") as [params|e] eqn:Hp; [|discriminate].
      destruct (getitem params "kernel") as [k|e] eqn:Hk; [|discriminate].
      apply getitem_returns in Hp, Hk.
      intros Hrun. exists shape, params, k. repeat split; try done.
      destruct (use_bias c).
      * destruct (getitem params "bias") as [b|e] eqn:Hb; [|discriminate].
        apply getitem_returns in Hb. exists b. split; [done|congruence].
      * congruence.
    + intros (shape' & params & k & [= <-] & Hp & Hk & Hb).
      apply getitem_returns in Hp, Hk. rewrite Hp, Hk.
      destruct (use_bias c).
      * destruct Hb as (b & Hb & ->). apply getitem_returns in Hb.
        rewrite Hb. reflexivity.
      * subst c1. reflexivity.
  - split; [discriminate|]. intros (? & ? & ? & [=] & _).
Qed.

(** Whatever its outcome, [module_init] assigns to [kernel] and [bias]
    only. *)
Lemma module_init_frame (key : PRNGKey) (c : t) :
  props (module_init key c).2 = props c ∧
  base (module_init key c).2 = base c.
Proof.
  rewrite module_init_unfold.
  destruct (module_init_shape c).1; [|done]. cbn zeta.
  destruct (getitem _ "params") as [params|e]; [|done].
  destruct (getitem params "kernel") as [k|e]; [|done].
  destruct (use_bias c); [|done].
  destruct (getitem params "bias"); done.
Qed.

(** C6. Initialization postcondition: [__init__] leaves [kernel] and
    [bias] at [None]; when [module_init key] then returns, [kernel] is the
    kernel of the wrapped module's [init] on the uniform dummy input, and
    [bias] is that [init]'s bias when [use_bias] is set and still [None]
    when it is not; the call does return whenever the shape is computed
    and [init] supplies the entries read. *)
Theorem init_postcondition fi fo ks st pad idil kdil fgc ub dt pr ki bi
    (key : PRNGKey) :
  let c0 := __init__ fi fo ks st pad idil kdil fgc ub dt pr ki bi in
  (kernel c0 = None ∧ bias c0 = None) ∧
  (∀ c1, module_init key c0 = (Return (), c1) →
     ∃ shape params k,
       module_init_shape c0 = (Return shape, c0) ∧
       flax_module.init (module c0) key (uniform key shape) !! "params"
         = Some params ∧
       params !! "kernel" = Some k ∧
       kernel c1 = Some k ∧
       (if ub then ∃ b, params !! "bias" = Some b ∧ bias c1 = Some b
        else bias c1 = None) ∧
       (is_Some (bias c1) ↔ ub = true)) ∧
  (∀ shape params k,
     module_init_shape c0 = (Return shape, c0) →
     flax_module.init (module c0) key (uniform key shape) !! "params"
       = Some params →
     params !! "kernel" = Some k →
     (ub = true → is_Some (params !! "bias")) →
     ∃ c1, module_init key c0 = (Return (), c1)).
Proof.
  intros c0. split; [done|]. split.
  - intros c1 (shape & params & k & Hs & Hp & Hk & Hb)%module_init_returns.
    exists shape, params, k. repeat split; try done.
    + revert Hb. unfold c0; simpl. destruct ub.
      * by intros (b & _ & ->).
      * by intros ->.
    + revert Hb. unfold c0; simpl. destruct ub.
      * intros (b & Hb & ->). eauto.
      * by intros ->.
    + revert Hb. unfold c0; simpl. destruct ub; [done|].
      intros -> [b Hb]. discriminate.
    + revert Hb. unfold c0; simpl. destruct ub; [|done].
      intros (b & _ & ->) _. by eexists.
  - intros shape params k Hs Hp Hk Hb.
    destruct ub eqn:Hub.
    + destruct Hb as [b Hb]; [done|].
      exists (set_bias (Some b) (set_kernel (Some k) c0)).
      apply module_init_returns. exists shape, params, k.
      repeat split; try done. unfold c0 at 1; simpl. eauto.
    + exists (set_kernel (Some k) c0).
      apply module_init_returns. exists shape, params, k.
      repeat split; done.
Qed.

End ConvInit.

(** *** The input [module_init] initialises the wrapped module on *)

Section ConvInitInput.
Context {JT : JaxTypes} {FL : flax_module.Linen} {JR : JaxRandom}
        {MB : ModuleBase}.

Lemma dummy_shape_layout (c : t) (m : Z) :
  let shape := seqZ (2 * m) (ndim c) ++ [features_in c] in
  len shape = ndim c + 1 ∧
  last shape = Some (features_in c) ∧
  (∀ i : nat, Z.of_nat i < ndim c →
     shape !! i = Some (2 * m + Z.of_nat i)) ∧
  len shape + 1 = documented_input_rank c.
Proof.
  intros shape.
  assert (Hnd : 0 ≤ ndim c).
  { unfold ndim, len. destruct (kernel_size c); lia. }
  assert (Hlen : len shape = ndim c + 1).
  { unfold shape, len. rewrite length_app, length_seqZ. simpl. lia. }
  split; [done|]. split; [apply last_snoc|]. split.
  - intros i Hi. unfold shape.
    rewrite lookup_app_l by (rewrite length_seqZ; lia).
    by apply lookup_seqZ_lt.
  - unfold documented_input_rank. lia.
Qed.

(** C8. Dummy-input shape in [module_init]: whenever [module_init]
    returns, the kernel it stored is the one the wrapped [init] produced
    on [uniform key shape], where [shape] is
    [2*m, 2*m+1, ..., 2*m+ndim-1, features_in]: rank [ndim + 1], last axis
    [features_in], the [ndim] axes before it consecutive integers from
    [2*m] with [m] the least kernel extent ([kernel_size] itself when an
    integer), one axis fewer than the [(batch, spatial_dims..., features)]
    layout [__call__] documents.  That array is all [module_init] asks of
    the libraries: other libraries whose [init] agrees on it give the same
    run.  For an integer [kernel_size] the shape is always computed. *)
Theorem module_init_input_shape (key : PRNGKey) (c : t) :
  (∀ c1, module_init key c = (Return (), c1) →
     ∃ m shape params k,
       min_kernel_size c m ∧
       shape = seqZ (2 * m) (ndim c) ++ [features_in c] ∧
       len shape = ndim c + 1 ∧
       last shape = Some (features_in c) ∧
       (∀ i : nat, Z.of_nat i < ndim c →
          shape !! i = Some (2 * m + Z.of_nat i)) ∧
       len shape + 1 = documented_input_rank c ∧
       flax_module.init (module c) key (uniform key shape) !! "params"
         = Some params ∧
       params !! "kernel" = Some k ∧
       kernel c1 = Some k) ∧
  (∀ (m : Z) (FL' : flax_module.Linen) (JR' : JaxRandom),
     min_kernel_size c m →
     let shape := seqZ (2 * m) (ndim c) ++ [features_in c] in
     flax_module.init (Linen := FL') (module c) key
       (uniform (JaxRandom := JR') key shape)
     = flax_module.init (Linen := FL) (module c) key
         (uniform (JaxRandom := JR) key shape) →
     module_init (FL := FL') (JR := JR') key c
     = module_init (FL := FL) (JR := JR) key c) ∧
  (∀ k, kernel_size c = flax_module.KInt k →
     module_init_shape c = (Return [2 * k; features_in c], c)).
Proof.
  split; [|split].
  - intros c1 (shape & params & k & Hs & Hp & Hk & Hb)%module_init_returns.
    pose proof Hs as (m & Hm & ->)%module_init_shape_returns.
    destruct (dummy_shape_layout c m) as (Hlen & Hlast & Hax & Hrank).
    exists m, (seqZ (2 * m) (ndim c) ++ [features_in c]), params, k.
    repeat split; try done.
    destruct (use_bias c).
    + by destruct Hb as (b & _ & ->).
    + by subst c1.
  - intros m FL' JR' Hm shape Hinit.
    assert (Hs : module_init_shape c = (Return shape, c)).
    { apply module_init_shape_returns. eauto. }
    rewrite (module_init_unfold (FL := FL') (JR := JR')),
      (module_init_unfold (FL := FL) (JR := JR)).
    rewrite Hs. cbn [fst]. cbn zeta. rewrite Hinit. reflexivity.
  - intros k Hk. rewrite module_init_shape_unfold, Hk.
    rewrite Z.mul_comm, (seqZ_cons (2 * k) 1), seqZ_nil by lia. reflexivity.
Qed.

End ConvInitInput.

(** *** The layer run on one-element arrays *)

Section ConvExamples.
Import Scalar.

(** [Conv(1, 1, [3, 3], strides=[2, 2], use_bias=ub)] with initialisers
    that derive the kernel from the key and set the bias to 4. *)
Definition fresh (ub : bool) : t :=
  __init__ (JT := Scalar.types) 1 1 (flax_module.KSeq [3; 3]) (Some [2; 2])
    (flax_module.PadStr "SAME") None None 1 ub () ()
    (λ key _ _, key + 1) (λ _ _ _, 4).

(** The same module with given leaves and base-class flag. *)
Definition loaded (ub : bool) (k b : option Z) (flag : bool) : t :=
  {| kernel := k; bias := b; features_in := 1; features_out := 1;
     kernel_size := flax_module.KSeq [3; 3]; strides := Some [2; 2];
     padding := flax_module.PadStr "SAME"; input_dilation := None;
     kernel_dilation := None; feature_group_count := 1; use_bias := ub;
     dtype := (); precision := ();
     kernel_init := λ key _ _, key + 1; bias_init := λ _ _ _, 4;
     base := flag |}.

Example call_with_bias :
  __call__ 5 (loaded true (Some 3) (Some 4) true)
  = (Return 19, loaded true (Some 3) (Some 4) true).
Proof. reflexivity. Qed.

Example call_without_bias :
  __call__ 5 (loaded false (Some 3) (Some 4) true)
  = (Return 15, loaded false (Some 3) (Some 4) true).
Proof. reflexivity. Qed.

(** With [use_bias] set the bias does reach the output. *)
Example call_bias_matters :
  (__call__ 5 (loaded true (Some 3) (Some 4) true)).1
  ≠ (__call__ 5 (loaded true (Some 3) (Some 9) true)).1.
Proof. vm_compute. discriminate. Qed.

Example module_init_fresh :
  module_init 7 (fresh true) = (Return (), loaded true (Some 8) (Some 4) false).
Proof. reflexivity. Qed.

Example module_init_fresh_no_bias :
  module_init 7 (fresh false) = (Return (), loaded false (Some 8) None false).
Proof. reflexivity. Qed.

(** An empty [kernel_size] makes [min] raise before anything is assigned. *)
Example module_init_empty_kernel_size :
  module_init 7
    (__init__ (JT := Scalar.types) 1 1 (flax_module.KSeq []) None (flax_module.PadStr "SAME")
       None None 1 true () () (λ key _ _, key + 1) (λ _ _ _, 4))
  = (Raise (ValueError "min() arg is an empty sequence"),
     __init__ (JT := Scalar.types) 1 1 (flax_module.KSeq []) None (flax_module.PadStr "SAME")
       None None 1 true () () (λ key _ _, key + 1) (λ _ _ _, 4)).
Proof. reflexivity. Qed.

Lemma call_delegates_witness :
  initialized (loaded true (Some 3) (Some 4) true) = true ∧
  (__call__ 5 (loaded true (Some 3) (Some 4) true)).1
  = delegated_output (loaded true (Some 3) (Some 4) true) 5 ∧
  delegated_output (loaded true (Some 3) (Some 4) true) 5 = Return 19.
Proof.
  split; [reflexivity|]. split; [|reflexivity].
  apply (call_delegates (loaded true (Some 3) (Some 4) true) 5).
  reflexivity.
Defined.

Lemma call_requires_initialized_witness :
  __call__ 5 (loaded true (Some 3) (Some 4) false)
  = (Raise (AssertionError "Module not initialized"),
     loaded true (Some 3) (Some 4) false) ∧
  (kernel (fresh true) = None ∧
   __call__ 5 (fresh true)
   = (Raise (AssertionError "Module not initialized"), fresh true)) ∧
  __call__ 5 (loaded true (Some 3) (Some 4) true)
  = (Return 19, loaded true (Some 3) (Some 4) true).
Proof.
  split; [|split].
  - apply (proj1 (call_requires_initialized
                    (loaded true (Some 3) (Some 4) false) 5)).
    reflexivity.
  - apply (proj1 (proj2 (call_requires_initialized (fresh true) 5))
             eq_refl 1 1 (flax_module.KSeq [3; 3]) (Some [2; 2])
             (flax_module.PadStr "SAME") None None 1 true () ()
             (λ key _ _, key + 1) (λ _ _ _, 4)).
  - apply (proj2 (proj2 (proj2 (call_requires_initialized
                                  (loaded true (Some 3) (Some 4) true) 5))
                    eq_refl)).
    reflexivity.
Defined.

(** C7 as stated fails: an initialized module can hold a kernel the
    wrapped module rejects, and the call then raises instead of returning
    a value. *)
Lemma call_initialized_may_raise :
  initialized (loaded true None (Some 4) true) = true ∧
  __call__ 5 (loaded true None (Some 4) true)
  = (Raise (TypeError "parameter is not an array"),
     loaded true None (Some 4) true) ∧
  ∀ v, __call__ 5 (loaded true None (Some 4) true)
       ≠ (Return v, loaded true None (Some 4) true).
Proof. split; [reflexivity|]. split; [reflexivity|]. discriminate. Qed.

Lemma call_ignores_unused_bias_witness :
  (__call__ 5 (loaded false (Some 3) (Some 4) true)).1
  = (__call__ 5 (loaded false (Some 3) (Some 9) true)).1.
Proof.
  apply (call_ignores_unused_bias
           (loaded false (Some 3) (Some 4) true)
           (loaded false (Some 3) (Some 9) true) 5); reflexivity.
Defined.

Lemma module_init_input_shape_witness :
  module_init 7 (fresh true)
  = (Return (), loaded true (Some 8) (Some 4) false) ∧
  ∃ m shape params k,
    min_kernel_size (fresh true) m ∧
    shape = seqZ (2 * m) (ndim (fresh true)) ++ [features_in (fresh true)] ∧
    len shape = ndim (fresh true) + 1 ∧
    last shape = Some (features_in (fresh true)) ∧
    (∀ i : nat, Z.of_nat i < ndim (fresh true) →
       shape !! i = Some (2 * m + Z.of_nat i)) ∧
    len shape + 1 = documented_input_rank (fresh true) ∧
    flax_module.init (module (fresh true)) 7 (uniform 7 shape) !! "params"
      = Some params ∧
    params !! "kernel" = Some k ∧
    kernel (loaded true (Some 8) (Some 4) false) = Some k.
Proof.
  split; [reflexivity|].
  apply (proj1 (module_init_input_shape (JT := Scalar.types) 7 (fresh true))
           (loaded true (Some 8) (Some 4) false)).
  reflexivity.
Defined.

Lemma init_postcondition_witness :
  module_init 7 (fresh false) = (Return (), loaded false (Some 8) None false) ∧
  (∃ shape params k,
     module_init_shape (fresh false) = (Return shape, fresh false) ∧
     flax_module.init (module (fresh false)) 7 (uniform 7 shape) !! "params"
       = Some params ∧
     params !! "kernel" = Some k ∧
     kernel (loaded false (Some 8) None false) = Some k ∧
     bias (loaded false (Some 8) None false) = None ∧
     (is_Some (bias (loaded false (Some 8) None false)) ↔ false = true)) ∧
  ∃ c1, module_init 7 (fresh true) = (Return (), c1).
Proof.
  split; [reflexivity|]. split.
  - apply (proj1 (proj2 (init_postcondition (JT := Scalar.types)
             1 1 (flax_module.KSeq [3; 3])
             (Some [2; 2]) (flax_module.PadStr "SAME") None None 1 false () ()
             (λ key _ _, key + 1) (λ _ _ _, 4) 7))).
    reflexivity.
  - apply (proj2 (proj2 (init_postcondition (JT := Scalar.types)
             1 1 (flax_module.KSeq [3; 3])
             (Some [2; 2]) (flax_module.PadStr "SAME") None None 1 true () ()
             (λ key _ _, key + 1) (λ _ _ _, 4) 7))
             [6; 7; 1] {[ "kernel" := 8; "bias" := 4 ]} 8).
    + reflexivity.
    + reflexivity.
    + reflexivity.
    + intros _. by eexists.
Defined.

End ConvExamples.

(** *** Further behaviour of [module_init] and [__call__] *)

Section ConvBehaviour.
Context {JT : JaxTypes} {FL : flax_module.Linen} {JR : JaxRandom}
        {MB : ModuleBase}.

(** The extents of the kernel: the integer itself, or the sequence. *)
Definition kernel_extents (c : t) : list Z :=
  match kernel_size c with
  | flax_module.KInt k => [k]
  | flax_module.KSeq l => l
  end.

Lemma set_kernel_shape (v : option Array) (c : t) :
  (module_init_shape (set_kernel v c)).1 = (module_init_shape c).1.
Proof. rewrite !module_init_shape_unfold. reflexivity. Qed.

Lemma set_bias_shape (v : option Array) (c : t) :
  (module_init_shape (set_bias v c)).1 = (module_init_shape c).1.
Proof. rewrite !module_init_shape_unfold. reflexivity. Qed.


(** X1. On a module whose [kernel_size] is an empty sequence,
    [module_init] raises the [ValueError] of [min], whatever the wrapped
    library is, and leaves the module as it was. *)
Theorem module_init_rejects_empty_kernel_size (key : PRNGKey) (c : t) :
  kernel_size c = flax_module.KSeq [] →
  module_init key c
  = (Raise (ValueError "min() arg is an empty sequence"), c).
Proof.
  intros Hks. rewrite module_init_unfold, module_init_shape_unfold, Hks.
  reflexivity.
Qed.


(** X3. Initialisation is not atomic: when the wrapped [init] supplies a
    kernel but no bias although [use_bias] is set, [module_init] raises
    [KeyError] for "bias" with [kernel] already assigned and [bias] as it
    was. *)
Theorem module_init_missing_bias (key : PRNGKey) (c : t)
    (shape : list Z) (params : gmap string Array) (k : Array) :
  module_init_shape c = (Return shape, c) →
  flax_module.init (module c) key (uniform key shape) !! "params"
    = Some params →
  params !! "kernel" = Some k →
  params !! "bias" = None →
  use_bias c = true →
  module_init key c = (Raise (KeyError "bias"), set_kernel (Some k) c).
Proof.
  intros Hs Hp Hk Hb Hub. rewrite module_init_unfold, Hs. cbn [fst]. cbn zeta.
  unfold getitem. rewrite Hp, Hk, Hub, Hb. reflexivity.
Qed.

(** X4. [module_init] does not mark the module initialized: on a module
    that is not initialized, [__call__] still fails its assertion after
    [module_init] has run, whatever [module_init] did. *)
Theorem module_init_keeps_uninitialized (key : PRNGKey) (x : Array) (c : t) :
  initialized c = false →
  (__call__ x (module_init key c).2).1
  = Raise (AssertionError "Module not initialized").
Proof.
  intros Hinit. rewrite call_unfold.
  unfold initialized in *.
  rewrite (proj2 (module_init_frame key c)), Hinit. reflexivity.
Qed.

(** X5. [module_init] is idempotent for a given key: run again on the
    module it left, it returns and leaves the module the same. *)
Theorem module_init_idempotent (key : PRNGKey) (c c1 : t) :
  module_init key c = (Return (), c1) →
  module_init key c1 = (Return (), c1).
Proof.
  intros (shape & params & k & Hs & Hp & Hk & Hb)%module_init_returns.
  apply module_init_returns.
  assert (Hc1 : module_init_shape c1 = (Return shape, c1) ∧
                module c1 = module c ∧ use_bias c1 = use_bias c).
  { assert (Hc : c1 = set_kernel (Some k) c ∨
                 ∃ b, c1 = set_bias (Some b) (set_kernel (Some k) c)).
    { destruct (use_bias c); [right|left]; [|done].
      destruct Hb as (b & _ & ->). eauto. }
    rewrite (surjective_pairing (module_init_shape c1)).
    rewrite module_init_shape_state.
    destruct Hc as [->|[b ->]].
    - rewrite set_kernel_shape, Hs. done.
    - rewrite set_bias_shape, set_kernel_shape, Hs. done. }
  destruct Hc1 as (Hs1 & Hm1 & Hub1).
  exists shape, params, k. rewrite Hm1, Hub1.
  split; [done|]. split; [done|]. split; [done|].
  destruct (use_bias c).
  - destruct Hb as (b & Hb & ->). exists b. split; [done|].
    destruct c; reflexivity.
  - subst c1. destruct c; reflexivity.
Qed.

(** X6. Initialisation and application round trip: when the wrapped
    [init] returns parameters holding a kernel, a bias if [use_bias] is
    set, and nothing else, [module_init] returns, and any initialized
    module carrying the leaves and properties it left applies the wrapped
    module to exactly those parameters. *)
Theorem call_after_module_init (key : PRNGKey) (x : Array) (c : t)
    (shape : list Z) (params : gmap string Array) :
  module_init_shape c = (Return shape, c) →
  flax_module.init (module c) key (uniform key shape) !! "params"
    = Some params →
  is_Some (params !! "kernel") →
  (use_bias c = true → is_Some (params !! "bias")) →
  (∀ name, is_Some (params !! name) →
           name = "kernel" ∨ (name = "bias" ∧ use_bias c = true)) →
  ∃ c1, module_init key c = (Return (), c1) ∧
    ∀ c2, kernel c2 = kernel c1 → bias c2 = bias c1 →
          module c2 = module c1 → initialized c2 = true →
      (__call__ x c2).1
      = flax_module.apply (module c) {[ "params" := Some <$> params ]} x.
Proof.
  intros Hs Hp [k Hk] Hbias Hdom.
  assert (Hrun : ∃ c1, module_init key c = (Return (), c1) ∧
            module c1 = module c ∧ kernel c1 = Some k ∧
            (use_bias c = true → bias c1 = params !! "bias")).
  { destruct (use_bias c) eqn:Hub.
    - destruct Hbias as [b Hb]; [done|].
      exists (set_bias (Some b) (set_kernel (Some k) c)). split.
      + apply module_init_returns. exists shape, params, k.
        rewrite Hub. eauto 10.
      + simpl. rewrite Hb. done.
    - exists (set_kernel (Some k) c). split.
      + apply module_init_returns. exists shape, params, k.
        rewrite Hub. eauto 10.
      + done. }
  destruct Hrun as (c1 & Hrun & Hm & Hk1 & Hb1).
  exists c1. split; [exact Hrun|].
  intros c2 Hk2 Hb2 Hm2 Hinit.
  assert (Hub2 : use_bias c2 = use_bias c).
  { change (flax_module.use_bias (module c2) = flax_module.use_bias (module c)).
    by rewrite Hm2, Hm. }
  rewrite call_unfold, Hinit, Hm2, Hm, Hub2, Hk2, Hb2, Hk1. cbn [fst].
  do 2 f_equal. apply map_eq. intros name. rewrite lookup_fmap.
  destruct (use_bias c) eqn:Hub.
  - rewrite Hb1 by done.
    destruct (decide (name = "bias")) as [->|Hnb].
    { rewrite lookup_insert_eq. destruct Hbias as [b ->]; done. }
    rewrite lookup_insert_ne by done.
    destruct (decide (name = "kernel")) as [->|Hnk].
    { rewrite lookup_singleton_eq, Hk. done. }
    rewrite lookup_singleton_ne by done.
    destruct (params !! name) eqn:Hn; [|done].
    destruct (Hdom name) as [?|[? _]]; [by eexists|done..].
  - destruct (decide (name = "kernel")) as [->|Hnk].
    { rewrite lookup_singleton_eq, Hk. done. }
    rewrite lookup_singleton_ne by done.
    destruct (params !! name) eqn:Hn; [|done].
    destruct (Hdom name) as [?|[_ ?]]; [by eexists|done..].
Qed.

(** X7. What [__call__] depends on: two modules with the same initialized
    flag, the same kernel, the same wrapped module and, when [use_bias] is
    set, the same bias give the same outcome; [features_in] in particular
    never reaches the wrapped module at call time. *)
Theorem call_depends_only_on (c1 c2 : t) (x : Array) :
  initialized c1 = initialized c2 →
  kernel c1 = kernel c2 →
  module c1 = module c2 →
  (use_bias c1 = true → bias c1 = bias c2) →
  (__call__ x c1).1 = (__call__ x c2).1.
Proof.
  intros Hi Hk Hm Hb.
  assert (Hub : use_bias c1 = use_bias c2).
  { change (flax_module.use_bias (module c1) = flax_module.use_bias (module c2)).
    by rewrite Hm. }
  rewrite !call_unfold, <- Hi, <- Hk, <- Hm, <- Hub.
  destruct (initialized c1); [|done].
  destruct (use_bias c1); [|done]. rewrite Hb by done. done.
Qed.

(** X8. A usable dummy input: when every kernel extent and [features_in]
    are at least 1, the shape [module_init] computes has spatial axes of
    at least 2 followed by [features_in], so every axis is positive. *)
Theorem module_init_shape_positive (c : t) (shape : list Z) :
  Forall (λ k, 1 ≤ k) (kernel_extents c) →
  1 ≤ features_in c →
  module_init_shape c = (Return shape, c) →
  (∃ spatial, shape = spatial ++ [features_in c] ∧
              Forall (λ d, 2 ≤ d) spatial) ∧
  Forall (λ d, 1 ≤ d) shape.
Proof.
  intros Hext Hfi (m & Hm & ->)%module_init_shape_returns.
  assert (Hm1 : 1 ≤ m).
  { unfold min_kernel_size, kernel_extents in *.
    destruct (kernel_size c) as [k|l].
    - subst m. by inversion Hext.
    - destruct Hm as [Hin _]. rewrite Forall_forall in Hext. by apply Hext. }
  assert (Hsp : Forall (λ d, 2 ≤ d) (seqZ (2 * m) (ndim c))).
  { apply Forall_seqZ. intros d Hd. lia. }
  split; [eauto|].
  apply Forall_app. split.
  - eapply Forall_impl; [exact Hsp|]. simpl. intros; lia.
  - by constructor.
Qed.

(** X9. A bias the module does not use is never touched: with [use_bias]
    unset, [module_init] leaves [bias] as it found it whatever its
    outcome, and [__call__] gives the same outcome as on the module with
    that bias removed. *)
Theorem unused_bias_is_inert (key : PRNGKey) (x : Array) (c : t) :
  use_bias c = false →
  bias (module_init key c).2 = bias c ∧
  (__call__ x (module_init key c).2).1
  = (__call__ x (set_bias None (module_init key c).2)).1.
Proof.
  intros Hub. split.
  - rewrite module_init_unfold.
    destruct (module_init_shape c).1; [|done]. cbn zeta.
    destruct (getitem _ "params") as [params|e]; [|done].
    destruct (getitem params "kernel") as [k|e]; [|done].
    rewrite Hub. done.
  - assert (Hub1 : use_bias (module_init key c).2 = false).
    { pose proof (proj1 (module_init_frame key c)) as Hp.
      unfold props in Hp. injection Hp as _ _ _ _ _ _ _ _ Hp _ _ _ _.
      congruence. }
    rewrite !call_unfold.
    destruct (module_init key c).2 as [? ? ? ? ? ? ? ? ? ? ? ? ? ? ? flag];
      simpl in Hub1; subst.
    unfold initialized; simpl. destruct (Module_initialized flag); reflexivity.
Qed.

End ConvBehaviour.

Section ConvBehaviourExamples.
Import Scalar.

(** A wrapped library whose [init] never supplies a bias. *)
Definition biasless : flax_module.Linen :=
  {| flax_module.apply := conv_apply;
     flax_module.init := λ m key x, {[ "params" := {[ "kernel" := key ]} ]} |}.

(** [loaded], declared for nine input features. *)
Definition wide (ub : bool) (k b : option Z) (flag : bool) : t :=
  {| kernel := k; bias := b; features_in := 9; features_out := 1;
     kernel_size := flax_module.KSeq [3; 3]; strides := Some [2; 2];
     padding := flax_module.PadStr "SAME"; input_dilation := None;
     kernel_dilation := None; feature_group_count := 1; use_bias := ub;
     dtype := (); precision := ();
     kernel_init := λ key _ _, key + 1; bias_init := λ _ _ _, 4;
     base := flag |}.

(** [Conv(1, 1, [], use_bias=True)] *)
Definition degenerate : t :=
  __init__ (JT := Scalar.types) 1 1 (flax_module.KSeq []) None
    (flax_module.PadStr "SAME") None None 1 true () ()
    (λ key _ _, key + 1) (λ _ _ _, 4).

Lemma module_init_rejects_empty_kernel_size_witness :
  module_init 7 degenerate
  = (Raise (ValueError "min() arg is an empty sequence"), degenerate).
Proof.
  apply (module_init_rejects_empty_kernel_size (JT := Scalar.types)
           7 degenerate). reflexivity.
Defined.


Lemma module_init_missing_bias_witness :
  module_init (FL := biasless) 7 (fresh true)
  = (Raise (KeyError "bias"), set_kernel (Some 7) (fresh true)).
Proof.
  apply (module_init_missing_bias (JT := Scalar.types) (FL := biasless)
           7 (fresh true)
           [6; 7; 1] {[ "kernel" := 7 ]} 7); reflexivity.
Defined.

Lemma module_init_keeps_uninitialized_witness :
  module_init 7 (fresh true)
  = (Return (), loaded true (Some 8) (Some 4) false) ∧
  (__call__ 5 (module_init 7 (fresh true)).2).1
  = Raise (AssertionError "Module not initialized").
Proof.
  split; [reflexivity|].
  apply (module_init_keeps_uninitialized (JT := Scalar.types)
           7 5 (fresh true)). reflexivity.
Defined.

Lemma module_init_idempotent_witness :
  module_init 7 (loaded true (Some 8) (Some 4) false)
  = (Return (), loaded true (Some 8) (Some 4) false).
Proof.
  apply (module_init_idempotent (JT := Scalar.types) 7 (fresh true)). reflexivity.
Defined.

Lemma call_after_module_init_witness :
  ∃ c1, module_init 7 (fresh true) = (Return (), c1) ∧
    ∀ c2, kernel c2 = kernel c1 → bias c2 = bias c1 →
          module c2 = module c1 → initialized c2 = true →
      (__call__ 5 c2).1
      = flax_module.apply (module (fresh true))
          {[ "params" := Some <$> {[ "kernel" := 8; "bias" := 4 ]} ]} 5.
Proof.
  apply (call_after_module_init (JT := Scalar.types) 7 5 (fresh true)
           [6; 7; 1]
           {[ "kernel" := 8; "bias" := 4 ]}).
  - reflexivity.
  - reflexivity.
  - by eexists.
  - intros _. by eexists.
  - intros name [v Hv].
    destruct (decide (name = "kernel")) as [->|Hk]; [by left|].
    destruct (decide (name = "bias")) as [->|Hb]; [by right|].
    rewrite lookup_insert_ne, lookup_singleton_ne in Hv by done.
    discriminate.
Defined.

Lemma call_depends_only_on_witness :
  (__call__ 5 (loaded false (Some 3) (Some 4) true)).1
  = (__call__ 5 (wide false (Some 3) (Some 9) true)).1.
Proof.
  apply (call_depends_only_on (loaded false (Some 3) (Some 4) true)
           (wide false (Some 3) (Some 9) true) 5);
    [reflexivity|reflexivity|reflexivity|discriminate].
Defined.

Lemma module_init_shape_positive_witness :
  (∃ spatial, [6; 7; 1] = spatial ++ [features_in (fresh true)] ∧
              Forall (λ d, 2 ≤ d) spatial) ∧
  Forall (λ d, 1 ≤ d) [6; 7; 1].
Proof.
  apply (module_init_shape_positive (fresh true) [6; 7; 1]).
  - repeat constructor; simpl; lia.
  - simpl. lia.
  - reflexivity.
Defined.

Lemma unused_bias_is_inert_witness :
  bias (module_init 7 (loaded false None (Some 4) true)).2 = Some 4 ∧
  (__call__ 5 (module_init 7 (loaded false None (Some 4) true)).2).1
  = (__call__ 5 (set_bias None
                   (module_init 7 (loaded false None (Some 4) true)).2)).1.
Proof.
  apply (unused_bias_is_inert (JT := Scalar.types) 7 5
           (loaded false None (Some 4) true)).
  reflexivity.
Defined.

End ConvBehaviourExamples.

End Conv.

(** ** What [examples/cnn.py] uses of jax, optax and treex *)

(** [jnp.mean], [optax.softmax_cross_entropy], [jax.nn.one_hot],
    [a.argmax(axis=i)] and the elementwise [a == b], on arguments they
    accept. *)
Class JaxNumpy {JT : JaxTypes} : Type := {
  jnp_mean : Array → Array;
  softmax_cross_entropy : Array → Array → Array;
  one_hot : Array → Z → Array;
  argmax : Array → Z → Array;
  array_eq : Array → Array → Array;
}.

Module tx.

(** The interface of [tx.Sequential] and [tx.Optimizer] that [cnn.py]
    relies on; their code ([treex/module.py], [treex/optimizer.py]) is not
    part of the sources.  Calling a model may update the model (batch
    statistics, random-number state) and applying updates may update the
    optimizer, so both give back the object they leave behind; random
    numbers are drawn from state held in the tree, not from outside it. *)
Class Treex {JT : JaxTypes} : Type := {
  Sequential : Type;
  Optimizer : Type;
  (** [model.filter(kind)] *)
  filter : types.Kind → Sequential → Sequential;
  (** [model.update(other)] *)
  update : Sequential → Sequential → result Sequential;
  (** [model(x)] *)
  call : Sequential → Array → result (Array * Sequential);
  (** [optimizer.apply_updates(grads, params)] *)
  apply_updates :
    Optimizer → Sequential → Sequential → result (Sequential * Optimizer);
}.

End tx.

(** [jax.grad]: the gradient of a scalar-valued function of a model tree,
    itself a tree. *)
Class JaxGrad {JT : JaxTypes} {TX : tx.Treex} : Type := {
  jax_grad : (tx.Sequential → result Array) → tx.Sequential → tx.Sequential;
}.

(** ** examples/cnn.py *)

Module cnn.

Section cnn.
Context {JT : JaxTypes} {JN : JaxNumpy} {TX : tx.Treex} {JG : JaxGrad}.

(** [loss_fn] *)
Definition loss_fn (params model : tx.Sequential) (x y : Array)
    : result (Array * (tx.Sequential * Array)) :=
  model ← tx.update model params;
  '(y_pred, model) ← tx.call model x;
  let loss := jnp_mean (softmax_cross_entropy y_pred (one_hot y 10)) in
  let acc_batch := array_eq (argmax y_pred 1) y in
  Return (loss, (model, acc_batch)).

(** [jax.value_and_grad(f, has_aux=True)(params, model, x, y)]: the value
    and auxiliary output of [f], and the gradient of the value in the
    first argument, the others held fixed. *)
Definition value_and_grad {Aux : Type}
    (f : tx.Sequential → tx.Sequential → Array → Array → result (Array * Aux))
    (params model : tx.Sequential) (x y : Array)
    : result ((Array * Aux) * tx.Sequential) :=
  out ← f params model x y;
  Return (out, jax_grad (λ p, fst <$> f p model x y) params).

(** [train_step]; [jax.jit] compiles the function and leaves what it
    computes unchanged. *)
Definition train_step (model : tx.Sequential) (optimizer : tx.Optimizer)
    (x y : Array)
    : result (Array * tx.Sequential * tx.Optimizer * Array) :=
  let params := tx.filter types.Parameter_ model in
  '((loss, (model, acc_batch)), grads) ←
    value_and_grad loss_fn params model x y;
  '(params, optimizer) ← tx.apply_updates optimizer grads params;
  model ← tx.update model params;
  Return (loss, model, optimizer, acc_batch).

(** [test_step] *)
Definition test_step (model : tx.Sequential) (x y : Array)
    : result (Array * Array) :=
  '(loss, (model, acc_batch)) ← loss_fn model model x y;
  Return (loss, acc_batch).

(** The forward pass on its own: the model applied to [x], with the mean
    softmax cross-entropy against the one-hot labels and the per-example
    accuracy of the predictions. *)
Definition forward (model : tx.Sequential) (x y : Array)
    : result (Array * (tx.Sequential * Array)) :=
  '(y_pred, model) ← tx.call model x;
  Return (jnp_mean (softmax_cross_entropy y_pred (one_hot y 10)),
          (model, array_eq (argmax y_pred 1) y)).

Lemma loss_fn_forward (params model : tx.Sequential) (x y : Array) :
  loss_fn params model x y = tx.update model params ≫= λ m, forward m x y.
Proof. reflexivity. Qed.

Lemma forward_returns (model m_fwd : tx.Sequential) (x y loss acc : Array) :
  forward model x y = Return (loss, (m_fwd, acc)) ↔
  ∃ y_pred,
    tx.call model x = Return (y_pred, m_fwd) ∧
    loss = jnp_mean (softmax_cross_entropy y_pred (one_hot y 10)) ∧
    acc = array_eq (argmax y_pred 1) y.
Proof.
  unfold forward. rewrite bind_Return. split.
  - intros ([y_pred m] & Hcall & [= <- <- <-]). eauto.
  - intros (y_pred & Hcall & -> & ->). exists (y_pred, m_fwd). eauto.
Qed.

Lemma value_and_grad_returns {Aux : Type}
    (f : tx.Sequential → tx.Sequential → Array → Array → result (Array * Aux))
    (params model : tx.Sequential) (x y : Array) out grads :
  value_and_grad f params model x y = Return (out, grads) ↔
  f params model x y = Return out ∧
  grads = jax_grad (λ p, fst <$> f p model x y) params.
Proof.
  unfold value_and_grad. rewrite bind_Return. split.
  - by intros (out' & Hf & [= <- <-]).
  - intros [Hf ->]. eauto.
Qed.

(** C2. Optimizer threading: [train_step] returns exactly when its pieces
    do, and then the gradient handed to the optimizer is the gradient of
    the loss in its first argument at [model.filter(Parameter)], the
    returned loss is the mean softmax cross-entropy of the forward pass's
    predictions, and the returned model is the model the forward pass
    left, updated with the parameters [apply_updates] returned. *)
Theorem train_step_threads_updates
    (model model' : tx.Sequential) (optimizer optimizer' : tx.Optimizer)
    (x y loss acc : Array) :
  train_step model optimizer x y = Return (loss, model', optimizer', acc) ↔
  ∃ m_upd y_pred m_fwd params',
    let params := tx.filter types.Parameter_ model in
    let grads := jax_grad (λ p, fst <$> loss_fn p model x y) params in
    tx.update model params = Return m_upd ∧
    tx.call m_upd x = Return (y_pred, m_fwd) ∧
    loss = jnp_mean (softmax_cross_entropy y_pred (one_hot y 10)) ∧
    acc = array_eq (argmax y_pred 1) y ∧
    tx.apply_updates optimizer grads params = Return (params', optimizer') ∧
    tx.update m_fwd params' = Return model'.
Proof.
  unfold train_step. rewrite bind_Return. split.
  - intros ([[loss0 [m_fwd acc0]] grads] & Hvg & Hrest).
    apply value_and_grad_returns in Hvg as [Hloss ->].
    apply bind_Return in Hrest as ([params' opt'] & Hupd & Hrest).
    apply bind_Return in Hrest as (m' & Hm' & [= <- <- <- <-]).
    rewrite loss_fn_forward in Hloss.
    apply bind_Return in Hloss as (m_upd & Hu & Hfwd).
    apply forward_returns in Hfwd as (y_pred & Hcall & -> & ->).
    exists m_upd, y_pred, m_fwd, params'. cbn zeta. auto 10.
  - intros (m_upd & y_pred & m_fwd & params' & Hu & Hcall & -> & -> & Hupd & Hm').
    eexists (_, (m_fwd, _), _). split.
    + apply value_and_grad_returns. split; [|reflexivity].
      rewrite loss_fn_forward, Hu. simpl.
      apply forward_returns. eauto.
    + simpl. cbn zeta in Hupd. rewrite Hupd. simpl. rewrite Hm'. reflexivity.
Qed.

End cnn.

(** *** [predict], and how the steps relate *)

Section cnn_steps.
Context {JT : JaxTypes} {JN : JaxNumpy} {TX : tx.Treex} {JG : JaxGrad}.

(** [predict] *)
Definition predict (model : tx.Sequential) (x : Array) : result Array :=
  '(y_pred, _) ← tx.call model x;
  Return (argmax y_pred 1).

Lemma test_step_forward (model : tx.Sequential) (x y : Array) :
  tx.update model model = Return model →
  test_step model x y = (λ r, (r.1, r.2.2)) <$> forward model x y.
Proof.
  intros Hself. unfold test_step. rewrite loss_fn_forward, Hself. simpl.
  destruct (forward model x y) as [[loss [m acc]]|e]; reflexivity.
Qed.

(** X10. [test_step] scores what [predict] predicts: for a model that
    [update] maps to itself when given itself, whenever [test_step]
    returns, [predict] returns too, and the per-example accuracy is the
    comparison of [predict]'s output with the labels. *)
Theorem test_step_scores_predictions
    (model : tx.Sequential) (x y loss acc : Array) :
  tx.update model model = Return model →
  test_step model x y = Return (loss, acc) →
  ∃ p, predict model x = Return p ∧ acc = array_eq p y.
Proof.
  intros Hself. rewrite test_step_forward by done.
  unfold forward, predict.
  destruct (tx.call model x) as [[y_pred m]|e]; simpl.
  - intros [= <- <-]. eauto.
  - discriminate.
Qed.

(** X11. [train_step] reports the loss and accuracy of the model it was
    given, not of the model it returns: when updating a model with its own
    [Parameter] subtree, or with itself, gives the model back, a returning
    [train_step] reports what [test_step] returns on the same model and
    batch. *)
Theorem train_step_reports_loss_before_update
    (model model' : tx.Sequential) (optimizer optimizer' : tx.Optimizer)
    (x y loss acc : Array) :
  tx.update model (tx.filter types.Parameter_ model) = Return model →
  tx.update model model = Return model →
  train_step model optimizer x y = Return (loss, model', optimizer', acc) →
  test_step model x y = Return (loss, acc).
Proof.
  intros Hround Hself Hstep.
  unfold train_step in Hstep.
  apply bind_Return in Hstep as ([[loss0 [m_fwd acc0]] grads] & Hvg & Hrest).
  apply value_and_grad_returns in Hvg as [Hloss _].
  apply bind_Return in Hrest as ([params' opt'] & _ & Hrest).
  apply bind_Return in Hrest as (m' & _ & [= <- <- <- <-]).
  rewrite loss_fn_forward, Hround in Hloss. simpl in Hloss.
  rewrite test_step_forward, Hloss by done. reflexivity.
Qed.

(** X12. A failing forward pass fails [train_step]: if updating the model
    with its [Parameter] subtree raises [e], or the model call on the
    updated model raises [e], then [train_step] raises [e], whatever the
    optimizer. *)
Theorem train_step_forward_failure
    (model : tx.Sequential) (optimizer : tx.Optimizer) (x y : Array)
    (e : exn) :
  let params := tx.filter types.Parameter_ model in
  (tx.update model params = Raise e ∨
   ∃ m_upd, tx.update model params = Return m_upd ∧
            tx.call m_upd x = Raise e) →
  train_step model optimizer x y = Raise e.
Proof.
  intros params Hfail. unfold train_step, value_and_grad.
  change (tx.filter types.Parameter_ model) with params.
  rewrite loss_fn_forward. unfold forward.
  destruct Hfail as [->|(m_upd & -> & Hcall)]; simpl; [done|].
  rewrite Hcall. reflexivity.
Qed.

End cnn_steps.

End cnn.

(** ** Module trees with typed leaves *)

Module tree_object.

Section Tree.
Context {JT : JaxTypes}.

(** Modelled from the spec: a module is an immutable tree with typed
    leaves; the code that builds and traverses it ([treex/tree_object.py],
    [treex/module.py]) is not part of the sources.  A leaf carries its
    kind and the array it holds, if any; an inner node carries its
    sub-modules in order. *)
Inductive Tree : Type :=
  | Leaf (kind : types.Kind) (value : option Array)
  | Node (children : list Tree).

(** Modelled from the spec: [.filter] selects the subtree of the leaves of
    one kind; the tree keeps its structure and every other leaf is left
    without a value. *)
Fixpoint filter (k : types.Kind) (t : Tree) : Tree :=
  match t with
  | Leaf kind value => Leaf kind (if decide (kind = k) then value else None)
  | Node children => Node (filter k <$> children)
  end.

Definition update_children (update : Tree → Tree → result Tree)
    : list Tree → list Tree → result (list Tree) :=
  fix go ts os :=
    match ts, os with
    | [], [] => Return []
    | t :: ts, o :: os =>
        t' ← update t o; ts' ← go ts os; Return (t' :: ts')
    | _, _ => Raise (ValueError "tree structures differ")
    end.

(** Modelled from the spec: [.update] gives the tree in which every leaf
    that has a value in [other] takes that value and every other leaf is
    kept; [other] must have the structure of the tree. *)
Fixpoint update (t other : Tree) : result Tree :=
  match t, other with
  | Leaf kind value, Leaf kind' value' =>
      if decide (kind = kind')
      then Return (Leaf kind (if value' is Some _ then value' else value))
      else Raise (ValueError "tree structures differ")
  | Node children, Node children' =>
      Node <$> update_children update children children'
  | _, _ => Raise (ValueError "tree structures differ")
  end.

(** The values a tree holds, each with the kind of its leaf. *)
Fixpoint leaves (t : Tree) : list (types.Kind * Array) :=
  match t with
  | Leaf kind (Some v) => [(kind, v)]
  | Leaf _ None => []
  | Node children => children ≫= leaves
  end.

Lemma Tree_ind_nested (P : Tree → Prop) :
  (∀ kind value, P (Leaf kind value)) →
  (∀ children, Forall P children → P (Node children)) →
  ∀ t, P t.
Proof.
  intros Hleaf Hnode. fix IH 1. intros [kind value|children].
  - apply Hleaf.
  - apply Hnode. induction children as [|t ts IHts]; constructor.
    + apply IH.
    + exact IHts.
Qed.

Lemma update_children_pointwise (f : Tree → Tree) (ts : list Tree) :
  Forall (λ t, update t (f t) = Return t) ts →
  update_children update ts (f <$> ts) = Return ts.
Proof.
  induction 1 as [|t ts Ht _ IH]; [reflexivity|].
  change (update_children update (t :: ts) (f <$> t :: ts))
    with (t' ← update t (f t);
          ts' ← update_children update ts (f <$> ts); Return (t' :: ts')).
  rewrite Ht, IH. reflexivity.
Qed.

(** Writing a selected subtree back changes nothing. *)
Lemma update_filter (k : types.Kind) (t : Tree) :
  update t (filter k t) = Return t.
Proof.
  induction t as [kind value|children IH] using Tree_ind_nested;
    cbn [update filter].
  - rewrite decide_True by reflexivity.
    destruct (decide (kind = k)), value; reflexivity.
  - rewrite update_children_pointwise by exact IH. reflexivity.
Qed.

(** Updating a tree with itself changes nothing. *)
Lemma update_self (t : Tree) : update t t = Return t.
Proof.
  induction t as [kind value|children IH] using Tree_ind_nested;
    cbn [update].
  - rewrite decide_True by reflexivity. destruct value; reflexivity.
  - rewrite <- (list_fmap_id children) at 2.
    rewrite update_children_pointwise by exact IH. reflexivity.
Qed.

(** A selected subtree holds values of the selected kind only. *)
Lemma leaves_filter (k : types.Kind) (t : Tree) :
  Forall (λ l, l.1 = k) (leaves (filter k t)).
Proof.
  induction t as [kind value|children IH] using Tree_ind_nested; simpl.
  - destruct (decide (kind = k)) as [->|]; [|constructor].
    destruct value; repeat constructor.
  - induction IH as [|t ts Ht _ IHts]; simpl; [constructor|].
    apply Forall_app. split; assumption.
Qed.

End Tree.

Section Treex.
Context {JT : JaxTypes} {JN : JaxNumpy}.
Variable Optimizer : Type.
Variable call : Tree → Array → result (Array * Tree).
Variable apply_updates : Optimizer → Tree → Tree → result (Tree * Optimizer).

(** The trees as models, whatever the forward pass and the optimizer. *)
Definition treex : tx.Treex :=
  {| tx.Sequential := Tree; tx.Optimizer := Optimizer;
     tx.filter := filter; tx.update := update;
     tx.call := call; tx.apply_updates := apply_updates |}.

(** C3. Filter/update round trip: updating a module with its own
    [Parameter] subtree gives the module back; so [loss_fn] applies the
    very model it was given, both when it receives that subtree as
    [params] (as in [train_step]) and when it receives the model itself
    (as in [test_step]), and its result is that of the forward pass of the
    model. *)
Theorem filter_update_round_trip (m : Tree) (x y : Array) :
  update m (filter types.Parameter_ m) = Return m ∧
  update m m = Return m ∧
  cnn.loss_fn (TX := treex) (filter types.Parameter_ m) m x y
    = cnn.forward (TX := treex) m x y ∧
  cnn.loss_fn (TX := treex) m m x y = cnn.forward (TX := treex) m x y ∧
  cnn.test_step (TX := treex) m x y
    = (λ r, (r.1, r.2.2)) <$> cnn.forward (TX := treex) m x y.
Proof.
  assert (Hself : cnn.loss_fn (TX := treex) m m x y
                  = cnn.forward (TX := treex) m x y).
  { rewrite cnn.loss_fn_forward. simpl. rewrite update_self. reflexivity. }
  split; [apply update_filter|]. split; [apply update_self|].
  split; [|split].
  - rewrite cnn.loss_fn_forward. simpl. rewrite update_filter. reflexivity.
  - exact Hself.
  - unfold cnn.test_step. rewrite Hself.
    destruct (cnn.forward (TX := treex) m x y) as [[loss [m' acc]]|e];
      reflexivity.
Qed.

End Treex.

End tree_object.

(** ** [Conv] as a tree with typed leaves *)

Module conv_pytree.

Section conv_pytree.
Context {JT : JaxTypes} {FL : flax_module.Linen} {JR : JaxRandom}
        {MB : ModuleBase}.

(** What an attribute of a [Conv] holds, by the type the class body
    annotates it with. *)
Inductive value : Type :=
  | VLeaf (a : option Array)
  | VInt (z : Z)
  | VKernelSize (ks : flax_module.kernel_size_t)
  | VInts (l : option (list Z))
  | VPadding (p : flax_module.padding_t)
  | VBool (b : bool)
  | VDtype (d : Dtype)
  | VPrecision (p : Precision)
  | VInitializer (f : flax_module.initializer).

(** [vars(self)]: the attributes [__init__] assigns, by name. *)
Definition vars (self : Conv.t) : list (string * value) :=
  [ ("kernel", VLeaf (Conv.kernel self));
    ("bias", VLeaf (Conv.bias self));
    ("features_in", VInt (Conv.features_in self));
    ("features_out", VInt (Conv.features_out self));
    ("kernel_size", VKernelSize (Conv.kernel_size self));
    ("strides", VInts (Conv.strides self));
    ("padding", VPadding (Conv.padding self));
    ("input_dilation", VInts (Conv.input_dilation self));
    ("kernel_dilation", VInts (Conv.kernel_dilation self));
    ("feature_group_count", VInt (Conv.feature_group_count self));
    ("use_bias", VBool (Conv.use_bias self));
    ("dtype", VDtype (Conv.dtype self));
    ("precision", VPrecision (Conv.precision self));
    ("kernel_init", VInitializer (Conv.kernel_init self));
    ("bias_init", VInitializer (Conv.bias_init self)) ].

(** The first entry of an association list under a name. *)
Fixpoint assoc {V : Type} (l : list (string * V)) (name : string) : option V :=
  match l with
  | [] => None
  | (n, v) :: l' => if String.eqb n name then Some v else assoc l' name
  end.

(** [getattr(self, name)] *)
Definition getattr (self : Conv.t) (name : string) : option value :=
  assoc (vars self) name.

(** The pytree leaves of a module: the attributes the class body declares
    with [K.field()], each with its kind [K] and the array it holds. *)
Definition leaf_fields (self : Conv.t)
    : list (string * types.Kind * option Array) :=
  omap (λ d, match d.2, getattr self d.1 with
             | Conv.field k, Some (VLeaf a) => Some (d.1, k, a)
             | _, _ => None
             end)
       Conv.declarations.

(** The static properties of a module: the attributes the class body
    declares by a bare annotation, each with the value it holds. *)
Definition static_props (self : Conv.t) : list (string * value) :=
  omap (λ d, match d.2 with
             | Conv.prop => pair d.1 <$> getattr self d.1
             | Conv.field _ => None
             end)
       Conv.declarations.

(** Modelled from the spec: the immutable tree with typed leaves a module
    is mapped to, one leaf per declared leaf field, in declaration order;
    the flattening code ([treex/tree_object.py]) is not part of the
    sources. *)
Definition tree_flatten (self : Conv.t) : tree_object.Tree :=
  tree_object.Node ((λ l, tree_object.Leaf l.1.2 l.2) <$> leaf_fields self).

Lemma static_props_of_props (c1 c2 : Conv.t) :
  Conv.props c1 = Conv.props c2 → static_props c1 = static_props c2.
Proof.
  destruct c1, c2. unfold Conv.props. simpl. intros [=]. subst. reflexivity.
Qed.

Lemma assignments_spare_props (c : Conv.t) (v : option Array) (name : string) :
  (name, Conv.prop) ∈ Conv.declarations →
  getattr (Conv.set_kernel v c) name = getattr c name ∧
  getattr (Conv.set_bias v c) name = getattr c name.
Proof.
  unfold Conv.declarations. intros Hin.
  repeat (apply elem_of_cons in Hin as [Heq|Hin];
          [first [discriminate Heq
                 | injection Heq as ->; split; reflexivity]|]).
  by apply elem_of_nil in Hin.
Qed.

(** C5. Typed-leaf invariant: the attributes of a [Conv] are exactly the
    declared ones; its pytree leaves are exactly two, [kernel] and [bias],
    both declared with [types.Parameter.field()], so that the module's
    tree consists of [Parameter] leaves only; the static properties are
    exactly the thirteen constructor arguments, stored by [__init__] as
    given, and none of them holds a leaf's array; and no method moves
    state from one kind to the other: the assignments [module_init] makes
    spare every static property, and [__call__] changes neither the
    properties nor the leaves. *)
Theorem typed_leaf_invariant (c : Conv.t) :
  (vars c).*1 = Conv.declarations.*1 ∧
  leaf_fields c
  = [ ("kernel", types.Parameter_, Conv.kernel c);
      ("bias", types.Parameter_, Conv.bias c) ] ∧
  tree_object.filter types.Parameter_ (tree_flatten c) = tree_flatten c ∧
  (∀ k, k ≠ types.Parameter_ →
        tree_object.leaves (tree_object.filter k (tree_flatten c)) = []) ∧
  (static_props c).*1 = Conv.init_parameters ∧
  Forall (λ nv, ∀ a, nv.2 ≠ VLeaf a) (static_props c) ∧
  (∀ fi fo ks st pad idil kdil fgc ub dt pr ki bi,
     let c0 := Conv.__init__ fi fo ks st pad idil kdil fgc ub dt pr ki bi in
     static_props c0
     = [ ("features_in", VInt fi); ("features_out", VInt fo);
         ("kernel_size", VKernelSize ks); ("strides", VInts st);
         ("padding", VPadding pad); ("input_dilation", VInts idil);
         ("kernel_dilation", VInts kdil);
         ("feature_group_count", VInt fgc); ("use_bias", VBool ub);
         ("dtype", VDtype dt); ("precision", VPrecision pr);
         ("kernel_init", VInitializer ki);
         ("bias_init", VInitializer bi) ] ∧
     leaf_fields c0
     = [ ("kernel", types.Parameter_, None);
         ("bias", types.Parameter_, None) ]) ∧
  (∀ v name, (name, Conv.prop) ∈ Conv.declarations →
     getattr (Conv.set_kernel v c) name = getattr c name ∧
     getattr (Conv.set_bias v c) name = getattr c name) ∧
  (∀ key, static_props (Conv.module_init key c).2 = static_props c) ∧
  (∀ x, static_props (Conv.__call__ x c).2 = static_props c ∧
        leaf_fields (Conv.__call__ x c).2 = leaf_fields c).
Proof.
  split; [reflexivity|]. split; [reflexivity|]. split; [reflexivity|].
  split; [by intros [| |]|]. split; [reflexivity|].
  split; [repeat constructor; discriminate|].
  split; [done|].
  split; [intros v name; apply assignments_spare_props|].
  split.
  - intros key. apply static_props_of_props, Conv.module_init_frame.
  - intros x. rewrite Conv.call_unfold.
    by destruct (Conv.initialized c).
Qed.

End conv_pytree.

Section conv_pytree_examples.
Import Scalar.

Lemma typed_leaf_invariant_witness :
  tree_flatten (Conv.fresh true)
  = tree_object.Node
      [ tree_object.Leaf types.Parameter_ None;
        tree_object.Leaf types.Parameter_ None ] ∧
  tree_object.leaves
    (tree_object.filter types.BatchStat (tree_flatten (Conv.fresh true)))
  = [] ∧
  getattr (Conv.set_kernel (Some 8) (Conv.fresh true)) "use_bias"
  = getattr (Conv.fresh true) "use_bias".
Proof.
  pose proof (typed_leaf_invariant (Conv.fresh true))
    as (_ & _ & _ & Hkinds & _ & _ & _ & Hset & _).
  split; [reflexivity|]. split.
  - apply Hkinds. discriminate.
  - apply (Hset (Some 8) "use_bias").
    apply list_elem_of_In. simpl. tauto.
Defined.

End conv_pytree_examples.

End conv_pytree.

(** ** The training steps run on one-element arrays *)

Module Examples.
Import Scalar.

(** Stand-ins for the numerical functions, chosen so that the steps
    compute: the loss of a prediction is its distance to the label. *)
#[export] Instance numpy : JaxNumpy :=
  {| jnp_mean := λ a, a;
     softmax_cross_entropy := λ logits labels, Z.abs (logits - labels);
     one_hot := λ y n, y `mod` n;
     argmax := λ a axis, a;
     array_eq := λ a b, if a =? b then 1 else 0 |}.

Fixpoint map_values (f : Z → Z) (t : tree_object.Tree) : tree_object.Tree :=
  match t with
  | tree_object.Leaf kind value => tree_object.Leaf kind (f <$> value)
  | tree_object.Node children => tree_object.Node (map_values f <$> children)
  end.

(** Every batch statistic records the last input seen. *)
Fixpoint observe (x : Z) (t : tree_object.Tree) : tree_object.Tree :=
  match t with
  | tree_object.Leaf types.BatchStat _ =>
      tree_object.Leaf types.BatchStat (Some x)
  | tree_object.Leaf kind value => tree_object.Leaf kind value
  | tree_object.Node children => tree_object.Node (observe x <$> children)
  end.

Definition total (t : tree_object.Tree) : Z :=
  foldr Z.add 0 (snd <$> tree_object.leaves t).

(** A forward pass: the input scaled by the sum of the parameters; a model
    without a parameter value fails the way an uninitialized layer does. *)
Definition scale (t : tree_object.Tree) (x : Z)
    : result (Z * tree_object.Tree) :=
  if decide (tree_object.leaves (tree_object.filter types.Parameter_ t) = [])
  then Raise (AssertionError "Module not initialized")
  else Return (x * total (tree_object.filter types.Parameter_ t), observe x t).

(** An optimizer that counts its steps and moves every parameter against
    the summed gradient. *)
Definition descend (steps : Z) (grads params : tree_object.Tree)
    : result (tree_object.Tree * Z) :=
  Return (map_values (λ v, v - total grads) params, steps + 1).

#[export] Instance treex : tx.Treex := tree_object.treex Z scale descend.

(** A gradient by finite difference along the all-ones direction. *)
#[export] Instance grad : JaxGrad :=
  {| jax_grad := λ f p,
       match f (map_values (λ v, v + 1) p), f p with
       | Return a, Return b => map_values (λ _, a - b) p
       | _, _ => map_values (λ _, 0) p
       end |}.

(** One layer with a weight of 2 and a batch statistic. *)
Definition net : tree_object.Tree :=
  tree_object.Node
    [ tree_object.Leaf types.Parameter_ (Some 2);
      tree_object.Leaf types.BatchStat (Some 0) ].

Example filter_net :
  tree_object.filter types.Parameter_ net
  = tree_object.Node
      [ tree_object.Leaf types.Parameter_ (Some 2);
        tree_object.Leaf types.BatchStat None ].
Proof. reflexivity. Qed.

Example update_filter_net :
  tree_object.update net (tree_object.filter types.Parameter_ net)
  = Return net.
Proof. reflexivity. Qed.

Example update_mismatch :
  tree_object.update net (tree_object.Node [])
  = Raise (ValueError "tree structures differ").
Proof. reflexivity. Qed.

Example test_step_net :
  cnn.test_step (TX := treex) net 3 1 = Return (5, 0).
Proof. reflexivity. Qed.

Lemma train_step_threads_updates_witness :
  cnn.train_step (TX := treex) net 0 3 1
  = Return (5,
            tree_object.Node
              [ tree_object.Leaf types.Parameter_ (Some (-1));
                tree_object.Leaf types.BatchStat (Some 3) ],
            1, 0) ∧
  ∃ m_upd y_pred m_fwd params',
    let params := tx.filter (Treex := treex) types.Parameter_ net in
    let grads :=
      jax_grad (λ p, fst <$> cnn.loss_fn (TX := treex) p net 3 1) params in
    tx.update net params = Return m_upd ∧
    tx.call m_upd 3 = Return (y_pred, m_fwd) ∧
    5 = jnp_mean (softmax_cross_entropy y_pred (one_hot 1 10)) ∧
    0 = array_eq (argmax y_pred 1) 1 ∧
    tx.apply_updates 0 grads params = Return (params', 1) ∧
    tx.update m_fwd params'
    = Return (tree_object.Node
                [ tree_object.Leaf types.Parameter_ (Some (-1));
                  tree_object.Leaf types.BatchStat (Some 3) ]).
Proof.
  split; [reflexivity|].
  apply (proj1 (cnn.train_step_threads_updates (TX := treex)
                  net _ 0 1 3 1 5 0)).
  reflexivity.
Defined.

(** The same layer before its weight has a value. *)
Definition blank : tree_object.Tree :=
  tree_object.Node
    [ tree_object.Leaf types.Parameter_ None;
      tree_object.Leaf types.BatchStat (Some 0) ].

Example predict_net : cnn.predict (TX := treex) net 3 = Return 6.
Proof. reflexivity. Qed.

Lemma test_step_scores_predictions_witness :
  cnn.test_step (TX := treex) net 3 1 = Return (5, 0) ∧
  ∃ p, cnn.predict (TX := treex) net 3 = Return p ∧ 0 = array_eq p 1.
Proof.
  split; [reflexivity|].
  apply (cnn.test_step_scores_predictions (TX := treex) net 3 1 5 0);
    reflexivity.
Defined.

(** [net] after one training step on the batch [(3, 1)]. *)
Definition stepped : tree_object.Tree :=
  tree_object.Node
    [ tree_object.Leaf types.Parameter_ (Some (-1));
      tree_object.Leaf types.BatchStat (Some 3) ].

Lemma train_step_reports_loss_before_update_witness :
  cnn.test_step (TX := treex) net 3 1 = Return (5, 0).
Proof.
  apply (cnn.train_step_reports_loss_before_update (TX := treex)
           net stepped 0 1 3 1 5 0); reflexivity.
Defined.

Lemma train_step_forward_failure_witness :
  cnn.train_step (TX := treex) blank 0 3 1
  = Raise (AssertionError "Module not initialized").
Proof.
  apply (cnn.train_step_forward_failure (TX := treex) blank 0 3 1
           (AssertionError "Module not initialized")).
  right. exists blank. split; reflexivity.
Defined.

End Examples.
